(** * mesonwrap: the wrap web service (wrapweb/__init__.py) and the
    repository bootstrapper (tools/repoinit.py), shallowly embedded.

    Python text is a list of Unicode code points; every Python call that
    can raise runs in a state-and-exception monad whose state records the
    observable calls made on external collaborators (database handles,
    git, GitHub, the network). *)

From Stdlib Require Import String Ascii List ZArith NArith Bool Lia.
Import ListNotations.
Open Scope list_scope.
Set Warnings "-register-all".

(** ** Python values used by both files *)

(** A Python [str]: a sequence of code points. *)
Definition ustr := list N.

(** A literal from the source (the literals are ASCII). *)
Definition u (s : string) : ustr := map N_of_ascii (list_ascii_of_string s).

Fixpoint ustr_eqb (a b : ustr) : bool :=
  match a, b with
  | [], [] => true
  | x :: a', y :: b' => N.eqb x y && ustr_eqb a' b'
  | _, _ => false
  end.

(** [str.endswith]. *)
Fixpoint prefixb (p s : ustr) : bool :=
  match p, s with
  | [], _ => true
  | x :: p', y :: s' => N.eqb x y && prefixb p' s'
  | _ :: _, [] => false
  end.

Definition endswith (s suffix : ustr) : bool := prefixb (rev suffix) (rev s).

(** The Python exception classes that occur in the two files. *)
Inductive exc :=
  | ValueError
  | KeyError
  | NameError
  | TypeError
  | OSError
  | NoSuchPathError            (* git.NoSuchPathError (GitError, OSError) *)
  | InvalidGitRepositoryError  (* git.InvalidGitRepositoryError (GitError) *)
  | GitCommandError            (* git.GitCommandError (GitError) *)
  | OtherException (name : ustr) (* any other subclass of Exception *)
  | KeyboardInterrupt          (* BaseException only *)
  | SystemExit                 (* BaseException only *)
  | GeneratorExit.             (* BaseException only *)

(** [isinstance(e, Exception)]. *)
Definition is_Exception (e : exc) : bool :=
  match e with
  | KeyboardInterrupt | SystemExit | GeneratorExit => false
  | _ => true
  end.

(** ** A state monad with Python exceptions *)

Inductive result (A : Type) :=
  | Ok (a : A)
  | Raise (e : exc).
Arguments Ok {A} a.
Arguments Raise {A} e.

Definition M (S A : Type) := S -> result A * S.

Definition ret {S A} (a : A) : M S A := fun s => (Ok a, s).

Definition raise {S A} (e : exc) : M S A := fun s => (Raise e, s).

Definition bind {S A B} (m : M S A) (k : A -> M S B) : M S B :=
  fun s => match m s with
           | (Ok a, s') => k a s'
           | (Raise e, s') => (Raise e, s')
           end.

Notation "x <- m ;; k" := (bind m (fun x => k))
  (at level 61, m at next level, right associativity).
Notation "m ;;; k" := (bind m (fun _ => k))
  (at level 61, right associativity).

(** [try: m  except <classes> as e: h e]. *)
Definition try_except {S A} (m : M S A) (catches : exc -> bool)
    (h : exc -> M S A) : M S A :=
  fun s => match m s with
           | (Raise e, s') => if catches e then h e s' else (Raise e, s')
           | r => r
           end.

(** [m] keeps the relation [R] between the state it starts from and the
    state it ends in, whether it returns or raises. *)
Definition stable {S A} (R : S -> S -> Prop) (m : M S A) : Prop :=
  forall s, R s (snd (m s)).

(** [re.fullmatch('[a-z0-9._]+', s)] is truthy. *)
Definition name_char (c : N) : bool :=
  ((97 <=? c) && (c <=? 122))%N || ((48 <=? c) && (c <=? 57))%N
  || (c =? 46)%N || (c =? 95)%N.

Definition fullmatch_name (s : ustr) : bool :=
  match s with
  | [] => false
  | _ => forallb name_char s
  end.

(** ** wrapweb/__init__.py *)
Module Wrapweb.

(** The values handed to [jsonify]. *)
Inductive json :=
  | JStr (s : ustr)
  | JInt (z : Z)
  | JArr (l : list json)
  | JObj (kv : list (ustr * json)).

Inductive body :=
  | BJson (j : json)                  (* jsonify(...) *)
  | BRaw (data : ustr) (mimetype : ustr). (* Response(data, mimetype=...) *)

Record response := { status_code : Z; rbody : body }.

(** [jsonify(out)]: status 200 unless the handler changes it. *)
Definition jsonify (j : json) : response := {| status_code := 200; rbody := BJson j |}.

Definition with_status (r : response) (c : Z) : response :=
  {| status_code := c; rbody := rbody r |}.

(** [out = {"output": "notok", "error": msg}; jsonout = jsonify(out);
    jsonout.status_code = 500]. *)
Definition notok (msg : string) : response :=
  with_status (jsonify (JObj [(u "output", JStr (u "notok")); (u "error", JStr (u msg))])) 500.

(** Observable calls on the two collaborators ([wrapdb.WrapDatabase],
    [wrapupdater.WrapUpdater]), whose code is not part of these files. *)
Inductive event :=
  | NewWrapDatabase (dir : ustr)
  | NewWrapUpdater (dir : ustr)
  | NameSearch (q : ustr)
  | GetVersions (project : ustr)
  | DbGetWrap (project branch : ustr) (revision : Z)
  | DbGetZip (project branch : ustr) (revision : Z)
  | UpdateDb (project repo_url branch : ustr).

(** The request-global [g]: the two lazily built handles, and the calls made. *)
Record state := {
  trace : list event;
  g_query_database : bool;
  g_update_database : bool }.

Definition emit (ev : event) : M state unit :=
  fun s => (Ok tt, {| trace := trace s ++ [ev];
                      g_query_database := g_query_database s;
                      g_update_database := g_update_database s |}).

(** What the collaborators answer. [update_db] returns [None] when it
    returns normally and [Some e] when it raises [e]. *)
Record collaborators := {
  name_search : ustr -> list ustr;
  get_versions : ustr -> list (ustr * Z);
  db_get_wrap : ustr -> ustr -> Z -> option ustr;
  db_get_zip : ustr -> ustr -> Z -> option ustr;
  update_db : ustr -> ustr -> ustr -> option exc }.

(** A Flask request: its path and its query arguments in order
    ([request.args[k]] is the first value given for [k]). *)
Record request := { req_path : ustr; req_args : list (ustr * ustr) }.

Fixpoint lookup_arg (k : ustr) (args : list (ustr * ustr)) : option ustr :=
  match args with
  | [] => None
  | (k', v) :: rest => if ustr_eqb k k' then Some v else lookup_arg k rest
  end.

Section Handlers.

Variable env : collaborators.
(** [db_directory], fixed at import time. *)
Variable db_directory : ustr.
(** Python's [int(text)] on a query argument: [None] when it raises
    ValueError. *)
Variable int_of : ustr -> option Z.

Definition get_query_db : M state unit :=
  fun s => if g_query_database s then (Ok tt, s)
           else (Ok tt, {| trace := trace s ++ [NewWrapDatabase db_directory];
                           g_query_database := true;
                           g_update_database := g_update_database s |}).

Definition get_update_db : M state unit :=
  fun s => if g_update_database s then (Ok tt, s)
           else (Ok tt, {| trace := trace s ++ [NewWrapUpdater db_directory];
                           g_query_database := g_query_database s;
                           g_update_database := true |}).

Definition get_projectlist : M state response :=
  get_query_db ;;;
  emit (NameSearch []) ;;;
  ret (jsonify (JObj [(u "output", JStr (u "ok"));
                      (u "projects", JArr (map JStr (name_search env [])))])).

Definition version_entry (i : ustr * Z) : json :=
  JObj [(u "branch", JStr (fst i)); (u "revision", JInt (snd i))].

(** [/projects] and [/projects/<project>]. *)
Definition get_project_info (project : option ustr) : M state response :=
  match project with
  | None => get_projectlist
  | Some p =>
      get_query_db ;;;
      emit (GetVersions p) ;;;
      let matches := get_versions env p in
      if Nat.eqb (length matches) 0 then ret (notok "No such project")
      else
        (* out['versions'].append(e) for each i in matches *)
        let versions := fold_left (fun acc i => acc ++ [version_entry i]) matches [] in
        ret (with_status (jsonify (JObj [(u "output", JStr (u "ok"));
                                         (u "versions", JArr versions)])) 200)
  end.

Definition arg (req : request) (k : string) : M state ustr :=
  match lookup_arg (u k) (req_args req) with
  | Some v => ret v
  | None => raise KeyError
  end.

Definition py_int (t : ustr) : M state Z :=
  match int_of t with
  | Some z => ret z
  | None => raise ValueError
  end.

(** [/projects/<project>/get_wrap] and [/projects/<project>/get_zip]. *)
Definition get_wrap (project : ustr) (req : request) : M state response :=
  get_query_db ;;;
  branch <- arg req "branch" ;;
  rtext <- arg req "revision" ;;
  revision <- py_int rtext ;;
  res_mtype <- (if endswith (req_path req) (u "/get_wrap")
                then emit (DbGetWrap project branch revision) ;;;
                     ret (db_get_wrap env project branch revision, u "text/plain")
                else emit (DbGetZip project branch revision) ;;;
                     ret (db_get_zip env project branch revision, u "application/zip")) ;;
  match fst res_mtype with
  | None => ret (notok "No such entry")
  | Some result => ret {| status_code := 200; rbody := BRaw result (snd res_mtype) |}
  end.

(** [/update/<project>/<branch>]. *)
Definition update_project (project branch : ustr) : M state response :=
  if negb (fullmatch_name project) then ret (notok "Invalid project name") else
  if negb (fullmatch_name branch) then ret (notok "Invalid branch name") else
  if ustr_eqb branch (u "master") then ret (notok "No bananas for you") else
  get_update_db ;;;
  let repo_url := u "https://github.com/mesonbuild/" ++ project ++ u ".git" in
  r <- try_except
         (emit (UpdateDb project repo_url branch) ;;;
          match update_db env project repo_url branch with
          | None => ret None
          | Some e => raise e
          end)
         is_Exception
         (fun _ => ret (Some (notok "Wrap generation failed."))) ;;
  match r with
  | Some failed => ret failed
  | None => ret (jsonify (JObj [(u "output", JStr (u "ok"))]))
  end.

End Handlers.

(** The URL paths routed to [get_wrap]. *)
Definition get_wrap_path (project : ustr) : ustr := u "/projects/" ++ project ++ u "/get_wrap".
Definition get_zip_path (project : ustr) : ustr := u "/projects/" ++ project ++ u "/get_zip".

(** CPython's [int(text)] (base 10) on text whose characters are ASCII:
    surrounding whitespace is stripped (str.isspace: \t \n \v \f \r,
    0x1c-0x1f and space), then an optional sign, then decimal digits in
    which single underscores may separate two digits. Non-ASCII decimal
    digits, which CPython also accepts, are not covered by this model. *)
Definition py_isspace (c : N) : bool :=
  ((9 <=? c) && (c <=? 13))%N || ((28 <=? c) && (c <=? 32))%N.

Definition is_digit (c : N) : bool := ((48 <=? c) && (c <=? 57))%N.

Fixpoint drop_space (t : ustr) : ustr :=
  match t with
  | c :: t' => if py_isspace c then drop_space t' else t
  | [] => []
  end.

Definition py_strip (t : ustr) : ustr := rev (drop_space (rev (drop_space t))).

Fixpoint digits_value (t : ustr) (acc : Z) (after_underscore : bool) : option Z :=
  match t with
  | [] => if after_underscore then None else Some acc
  | c :: t' =>
      if is_digit c then digits_value t' (acc * 10 + Z.of_N (c - 48)) false
      else if (c =? 95)%N && negb after_underscore then digits_value t' acc true
      else None
  end.

Definition unsigned_value (t : ustr) : option Z :=
  match t with
  | c :: t' => if is_digit c then digits_value t' (Z.of_N (c - 48)) false else None
  | [] => None
  end.

Definition cpython_int (text : ustr) : option Z :=
  match py_strip text with
  | c :: t => if (c =? 45)%N then option_map Z.opp (unsigned_value t)
              else if (c =? 43)%N then unsigned_value t
              else unsigned_value (c :: t)
  | [] => None
  end.

(** A decimal integer string in the plain sense: [-+]?[0-9]+ . *)
Definition is_decimal_int_string (t : ustr) : bool :=
  match t with
  | c :: t' => if (c =? 45)%N || (c =? 43)%N
               then match t' with [] => false | _ => forallb is_digit t' end
               else forallb is_digit t
  | [] => false
  end.

(** A request context in which no handle has been built yet. *)
Definition fresh : state := {| trace := []; g_query_database := false; g_update_database := false |}.

(** Collaborators with one stored wrap, and an updater behaving as [upd]. *)
Definition sample_env (upd : option exc) : collaborators := {|
  name_search := fun _ => [u "zlib"];
  get_versions := fun p => if ustr_eqb p (u "zlib") then [(u "1.2.8", 3%Z)] else [];
  db_get_wrap := fun p b r => if ustr_eqb p (u "zlib") && ustr_eqb b (u "1.2.8") && Z.eqb r 3
                              then Some (u "[wrap-file]") else None;
  db_get_zip := fun _ _ _ => None;
  update_db := fun _ _ _ => upd |}.

(** The routes of the application, as Flask dispatches them. *)
Inductive route :=
  | ProjectsRoute (project : option ustr)        (* /projects, /projects/<project> *)
  | WrapRoute (project : ustr) (req : request)   (* /projects/<project>/get_wrap, get_zip *)
  | UpdateRoute (project branch : ustr).         (* /update/<project>/<branch> *)

Definition dispatch (env : collaborators) (db_directory : ustr) (int_of : ustr -> option Z)
    (r : route) : M state response :=
  match r with
  | ProjectsRoute project => get_project_info env db_directory project
  | WrapRoute project req => get_wrap env db_directory int_of project req
  | UpdateRoute project branch => update_project env db_directory project branch
  end.




End Wrapweb.

(** ** tools/repoinit.py *)
Module Repoinit.

Definition nl : ustr := [10%N].

(** The text of a triple-quoted literal: each line followed by a newline. *)
Definition text_lines (ls : list string) : ustr := concat (map (fun l => u l ++ nl) ls).

(** Python [templ % (a, b, ...)] with string arguments: [%s] takes the next
    argument, [%%] is a percent sign; any other conversion raises
    ValueError, a wrong number of arguments raises TypeError. *)
Fixpoint percent_format (t : ustr) (args : list ustr) : result ustr :=
  match t with
  | [] => match args with [] => Ok [] | _ :: _ => Raise TypeError end
  | c :: t' =>
      if (c =? 37)%N then
        match t' with
        | d :: t'' =>
            if (d =? 115)%N then
              match args with
              | a :: args' =>
                  match percent_format t'' args' with
                  | Ok r => Ok (a ++ r) | Raise e => Raise e end
              | [] => Raise TypeError
              end
            else if (d =? 37)%N then
              match percent_format t'' args with
              | Ok r => Ok (37%N :: r) | Raise e => Raise e end
            else Raise ValueError
        | [] => Raise ValueError
        end
      else match percent_format t' args with
           | Ok r => Ok (c :: r) | Raise e => Raise e end
  end.

Definition upstream_templ : ustr :=
  text_lines ["[wrap-file]"; "directory = %s"; ""; "source_url = %s";
              "source_filename = %s"; "source_hash = %s"]%string.

(** [readme.format(reponame=name)]. *)
Definition readme_text (name : ustr) : ustr :=
  u "This repository contains a Meson build definition for project " ++ name
  ++ u "." ++ nl ++ nl
  ++ u "For more information please see http://mesonbuild.com." ++ nl.

(** [os.path.join(a, b)] on POSIX. *)
Definition path_join (a b : ustr) : ustr :=
  match b with
  | 47%N :: _ => b
  | _ => if endswith a (u "/") then a ++ b
         else match a with [] => b | _ => a ++ u "/" ++ b end
  end.

(** What [git.Repo(p)] (GitPython) finds at a path. *)
Inductive path_kind :=
  | Missing                    (* no such path: NoSuchPathError *)
  | NotARepo                   (* exists, no repository: InvalidGitRepositoryError *)
  | GitRepo (has_origin : bool).

(** Observable calls on git, GitHub, the file system and the network. *)
Inductive event :=
  | GitRepoOpen (path : ustr)
  | RemoteLookup (name : ustr)
  | GithubClient
  | GetOrganization (org : option ustr)
  | CreateRepo (name description homepage : ustr)
  | GitRepoInit (path : option ustr)
  | FileOpen (path : ustr)
  | FileWrite (path : ustr) (content : ustr)
  | IndexAdd (paths : list ustr)
  | IndexCommit (message : ustr)
  | CreateRemote (name url : ustr)
  | Push (refname : ustr)
  | CreateHead (name : ustr) (commit : option ustr)
  | SetHeadReference (name : ustr)
  | HeadReset
  | UrlOpen (url : ustr)
  | UrlRead (url : ustr).

Definition is_network (ev : event) : bool :=
  match ev with
  | GithubClient | GetOrganization _ | CreateRepo _ _ _ | Push _
  | UrlOpen _ | UrlRead _ => true
  | _ => false
  end.

Definition is_commit_or_push (ev : event) : bool :=
  match ev with IndexCommit _ | Push _ => true | _ => false end.

(** The machine the script runs on. [fails ev] is the exception the call
    [ev] raises, if any. *)
Record host := {
  cwd : ustr;
  git_dir_env : option ustr;              (* os.getenv('GIT_DIR') *)
  path_at : ustr -> path_kind;
  working_dir : ustr;                     (* self.repo.working_dir *)
  this_year : ustr;                       (* datetime.datetime.now().year *)
  ssh_url : ustr -> ustr;                 (* ghrepo.ssh_url *)
  head_ref_name : ustr;                   (* self.repo.head.ref.name *)
  url_data : ustr -> list N;              (* r.read() *)
  fails : event -> option exc }.

(** Python values bound to names; only strings are inspected. *)
Inductive pyval :=
  | VStr (s : ustr)
  | VObj (what : ustr).    (* a module, class or function object *)

Fixpoint lookup_name (x : ustr) (ns : list (ustr * pyval)) : option pyval :=
  match ns with
  | [] => None
  | (y, v) :: ns' => if ustr_eqb x y then Some v else lookup_name x ns'
  end.

(** The module namespace of repoinit.py: its imports, its top-level
    assignments and definitions, and, when run as a script, the names bound
    under [if __name__ == '__main__']. *)
Definition repoinit_globals (name_of_module : ustr) : list (ustr * pyval) :=
  [(u "__name__", VStr name_of_module); (u "__doc__", VObj (u "str"));
   (u "__file__", VObj (u "str")); (u "__builtins__", VObj (u "module"));
   (u "__spec__", VObj (u "ModuleSpec")); (u "__loader__", VObj (u "loader"));
   (u "__package__", VObj (u "str"));
   (u "argparse", VObj (u "module")); (u "datetime", VObj (u "module"));
   (u "git", VObj (u "module")); (u "hashlib", VObj (u "module"));
   (u "os", VObj (u "module")); (u "shutil", VObj (u "module"));
   (u "sys", VObj (u "module")); (u "urllib", VObj (u "module"));
   (u "environment", VObj (u "module"));
   (u "upstream_templ", VStr upstream_templ); (u "readme", VObj (u "str"));
   (u "mit_license", VObj (u "str"));
   (u "GitFile", VObj (u "class")); (u "RepoBuilder", VObj (u "class"))]
  ++ (if ustr_eqb name_of_module (u "__main__")
      then [(u "parser", VObj (u "ArgumentParser")); (u "args", VObj (u "Namespace"));
            (u "organization", VObj (u "str")); (u "builder", VObj (u "RepoBuilder"))]
      else []).

Definition state := list event.

Section Script.

Variable h : host.
(** [__name__] of the module: ['__main__'] or ['repoinit']. *)
Variable name_of_module : ustr.
(** The names of the [builtins] module. *)
Variable builtin_names : list (ustr * pyval).
(** [hashlib.sha256(data).hexdigest()]. *)
Variable sha256_hexdigest : list N -> ustr.
(** The permission notice that follows the copyright line of [mit_license]. *)
Variable mit_license_terms : ustr.

Definition call (ev : event) : M state unit :=
  fun s => match fails h ev with
           | None => (Ok tt, s ++ [ev])
           | Some e => (Raise e, s ++ [ev])
           end.

Definition lift {A} (r : result A) : M state A :=
  match r with Ok a => ret a | Raise e => raise e end.

(** Evaluating a name in a function body: locals, then the module
    globals, then the builtins; unbound raises NameError. *)
Definition load_name (locals : list (ustr * pyval)) (x : ustr) : M state pyval :=
  match lookup_name x locals with
  | Some v => ret v
  | None =>
      match lookup_name x (repoinit_globals name_of_module) with
      | Some v => ret v
      | None => match lookup_name x builtin_names with
                | Some v => ret v
                | None => raise NameError
                end
      end
  end.

(** [RepoBuilder.open(path, 'w')] used as [with ... as ofile: ofile.write(text)];
    [GitFile.__exit__] adds [path] to the index. *)
Definition write_tracked (path text : ustr) : M state unit :=
  let abspath := path_join (working_dir h) path in
  call (FileOpen abspath) ;;;
  call (FileWrite abspath text) ;;;
  call (IndexAdd [path]).

(** A local git operation whose outcome is fixed by [path_at]. *)
Definition emit (ev : event) : M state unit := fun s => (Ok tt, s ++ [ev]).

(** The directory [git.Repo(path)] opens: [path or os.getenv('GIT_DIR')],
    else the current directory. *)
Definition repo_path (path : option ustr) : ustr :=
  match path with
  | Some ((_ :: _) as q) => q
  | _ => match git_dir_env h with Some ((_ :: _) as d) => d | _ => cwd h end
  end.

(** [git.Repo(path)] then [self.repo.remote('origin')] (GitPython raises
    ValueError for a missing remote). *)
Definition open_repo (path : option ustr) : M state unit :=
  let p := repo_path path in
  emit (GitRepoOpen p) ;;;
  match path_at h p with
  | Missing => raise NoSuchPathError
  | NotARepo => raise InvalidGitRepositoryError
  | GitRepo has_origin =>
      emit (RemoteLookup (u "origin")) ;;;
      if has_origin then ret tt else raise ValueError
  end.

(** [RepoBuilder.__init__(name, path, homepage, organization)]. *)
Definition RepoBuilder_init (name : ustr) (path homepage organization : option ustr)
    : M state unit :=
  try_except (open_repo path)
    (fun e => match e with InvalidGitRepositoryError => true | _ => false end)
    (fun _ =>
       match homepage with
       | None => raise ValueError
       | Some hp =>
           call GithubClient ;;;
           call (GetOrganization organization) ;;;
           let description := u "Meson build definitions for " ++ name in
           call (CreateRepo name description hp) ;;;
           call (GitRepoInit path) ;;;
           write_tracked (u "readme.txt") (readme_text name) ;;;
           write_tracked (u "LICENSE.build")
             (u "Copyright (c) " ++ this_year h ++ u " The Meson development team"
              ++ nl ++ nl ++ mit_license_terms) ;;;
           call (IndexCommit (u "Create repository for project " ++ name)) ;;;
           call (CreateRemote (u "origin") (ssh_url h name)) ;;;
           call (Push (head_ref_name h))
       end).

(** [RepoBuilder._get_hash(url)]: its body reads the name [zipurl]. *)
Definition _get_hash (url : ustr) : M state ustr :=
  let locals := [(u "url", VStr url)] in
  _ <- load_name locals (u "urllib") ;;
  arg <- load_name locals (u "zipurl") ;;
  match arg with
  | VStr target =>
      call (UrlOpen target) ;;;
      call (UrlRead target) ;;;
      ret (sha256_hexdigest (url_data h target))
  | VObj _ => raise (OtherException (u "AttributeError"))
  end.

(** [RepoBuilder.create_version(version, zipurl, filename, directory, ziphash, base)]. *)
Definition create_version (version zipurl filename directory : ustr)
    (ziphash base : option ustr) : M state unit :=
  hash <- match ziphash with
          | Some zh => ret zh
          | None => _get_hash zipurl
          end ;;
  call (CreateHead version base) ;;;
  call (SetHeadReference version) ;;;
  call HeadReset ;;;
  text <- lift (percent_format upstream_templ [directory; zipurl; filename; hash]) ;;
  write_tracked (u "upstream.wrap") text ;;;
  call (IndexAdd [u "upstream.wrap"]).

End Script.

(** The text [upstream_templ % (directory, zipurl, filename, hash)]. *)
Definition upstream_wrap_text (directory zipurl filename hash : ustr) : ustr :=
  u "[wrap-file]" ++ nl
  ++ u "directory = " ++ directory ++ nl ++ nl
  ++ u "source_url = " ++ zipurl ++ nl
  ++ u "source_filename = " ++ filename ++ nl
  ++ u "source_hash = " ++ hash ++ nl.

(** The calls [create_version] makes once the hash is known. *)
Definition create_version_calls (h : host) (version zipurl filename directory hash : ustr)
    (base : option ustr) : list event :=
  let abspath := path_join (working_dir h) (u "upstream.wrap") in
  [CreateHead version base; SetHeadReference version; HeadReset; FileOpen abspath;
   FileWrite abspath (upstream_wrap_text directory zipurl filename hash);
   IndexAdd [u "upstream.wrap"]; IndexAdd [u "upstream.wrap"]].

Definition is_file_write (ev : event) : bool :=
  match ev with FileWrite _ _ => true | _ => false end.

(** A machine on which every call succeeds and [path_at] answers [kind]. *)
Definition sample_host (kind : path_kind) : host := {|
  cwd := u "/home/dev";
  git_dir_env := None;
  path_at := fun _ => kind;
  working_dir := u "/home/dev/zlib";
  this_year := u "2026";
  ssh_url := fun n => u "git@github.com:mesonbuild/" ++ n ++ u ".git";
  head_ref_name := u "master";
  url_data := fun _ => [];
  fails := fun _ => None |}.

Section Cli.

Variable h : host.
Variable mit_license_terms : ustr.

(** [RepoBuilder.init_version(version)]: [create_head(version)] (from
    ['HEAD']), then [self.origin.push(branch)]. *)
Definition init_version (version : ustr) : M state unit :=
  call h (CreateHead version (Some (u "HEAD"))) ;;;
  call h (Push version).

(** The namespace [parser.parse_args()] returns. *)
Record cli_args := {
  arg_name : ustr;
  arg_directory : option ustr;
  arg_version : option ustr;
  arg_homepage : option ustr;
  arg_test : bool }.

(** The [if __name__ == '__main__'] block, after argument parsing. *)
Definition main (args : cli_args) : M state unit :=
  let organization := if arg_test args then u "mesonbuild-test" else u "mesonbuild" in
  RepoBuilder_init h mit_license_terms (arg_name args) (arg_directory args)
    (arg_homepage args) (Some organization) ;;;
  match arg_version args with
  | Some ((_ :: _) as version) => init_version version
  | _ => ret tt
  end.

End Cli.

(** The calls [RepoBuilder.__init__] makes to bootstrap a new repository. *)
Definition bootstrap_calls (h : host) (mit_license_terms : ustr) (name : ustr)
    (path : option ustr) (homepage : ustr) (organization : option ustr) : list event :=
  let readme_path := path_join (working_dir h) (u "readme.txt") in
  let license_path := path_join (working_dir h) (u "LICENSE.build") in
  [GitRepoOpen (repo_path h path); GithubClient; GetOrganization organization;
   CreateRepo name (u "Meson build definitions for " ++ name) homepage;
   GitRepoInit path;
   FileOpen readme_path; FileWrite readme_path (readme_text name); IndexAdd [u "readme.txt"];
   FileOpen license_path;
   FileWrite license_path (u "Copyright (c) " ++ this_year h ++ u " The Meson development team"
                           ++ nl ++ nl ++ mit_license_terms);
   IndexAdd [u "LICENSE.build"];
   IndexCommit (u "Create repository for project " ++ name);
   CreateRemote (u "origin") (ssh_url h name);
   Push (head_ref_name h)].

(** The calls [init_version] makes when [--version] is given non-empty. *)
Definition version_calls (version : option ustr) : list event :=
  match version with
  | Some ((_ :: _) as v) => [CreateHead v (Some (u "HEAD")); Push v]
  | _ => []
  end.

(** The events the command line may cause: no download, and only
    readme.txt and LICENSE.build are opened or written. *)
Definition cli_event_ok (h : host) (ev : event) : bool :=
  match ev with
  | UrlOpen _ | UrlRead _ => false
  | FileOpen p | FileWrite p _ =>
      ustr_eqb p (path_join (working_dir h) (u "readme.txt"))
      || ustr_eqb p (path_join (working_dir h) (u "LICENSE.build"))
  | _ => true
  end.

End Repoinit.

(** * Properties *)

Lemma ustr_eqb_eq : forall a b, ustr_eqb a b = true <-> a = b.
Proof.
  induction a as [|x a IH]; destruct b as [|y b]; simpl; split; intro H;
    try congruence.
  - apply andb_prop in H as [H1 H2]. apply N.eqb_eq in H1.
    apply IH in H2. subst. reflexivity.
  - injection H as -> ->. rewrite N.eqb_refl. simpl. apply IH. reflexivity.
Qed.

Lemma prefixb_app : forall p s, prefixb p (p ++ s) = true.
Proof. induction p; intro s; simpl; auto. rewrite N.eqb_refl, IHp. reflexivity. Qed.

Lemma endswith_app : forall x suf, endswith (x ++ suf) suf = true.
Proof. intros. unfold endswith. rewrite rev_app_distr. apply prefixb_app. Qed.

Module WrapwebFacts.
Import Wrapweb.

Example cpython_int_examples :
  cpython_int (u " 7") = Some 7%Z /\ cpython_int (u "1_0") = Some 10%Z /\
  cpython_int (u "-12") = Some (-12)%Z /\ cpython_int (u "1__0") = None /\
  cpython_int (u "x") = None /\ cpython_int (u "") = None.
Proof. vm_compute. repeat split. Qed.

Lemma fold_append_map : forall (A B : Type) (f : A -> B) l acc,
  fold_left (fun acc i => acc ++ [f i]) l acc = acc ++ map f l.
Proof.
  induction l as [|x l IH]; intro acc; simpl.
  - rewrite app_nil_r. reflexivity.
  - rewrite IH, <- app_assoc. reflexivity.
Qed.

Lemma get_wrap_path_endswith : forall p, endswith (get_wrap_path p) (u "/get_wrap") = true.
Proof. intro p. unfold get_wrap_path. rewrite app_assoc. apply endswith_app. Qed.

Lemma get_zip_path_not_wrap : forall p, endswith (get_zip_path p) (u "/get_wrap") = false.
Proof.
  intro p. unfold get_zip_path, endswith. rewrite app_assoc, rev_app_distr. reflexivity.
Qed.

(** Lookups on the query database recorded in a trace. *)
Definition is_lookup (ev : event) : bool :=
  match ev with DbGetWrap _ _ _ | DbGetZip _ _ _ => true | _ => false end.

Lemma filter_app_lookup_none : forall tr extra,
  forallb (fun ev => negb (is_lookup ev)) extra = true ->
  filter is_lookup (tr ++ extra) = filter is_lookup tr.
Proof.
  intros tr extra H. rewrite filter_app.
  assert (filter is_lookup extra = []) as ->.
  { induction extra as [|ev extra IH]; simpl in *; auto.
    apply andb_prop in H as [H1 H2]. destruct (is_lookup ev); simpl in *; [discriminate|auto]. }
  apply app_nil_r.
Qed.

(** C1: on /update/<project>/<branch>, a project name that does not fully
    match [a-z0-9._]+ gets HTTP 500 with error "Invalid project name", and
    the request context is left as it was: no updater handle is built and
    no collaborator is called. *)
Theorem update_rejects_invalid_project :
  forall env dir project branch s,
    fullmatch_name project = false ->
    update_project env dir project branch s = (Ok (notok "Invalid project name"), s)
    /\ status_code (notok "Invalid project name") = 500%Z.
Proof.
  intros env dir project branch s H. unfold update_project. rewrite H. split; reflexivity.
Qed.

Lemma update_rejects_invalid_project_witness :
  fullmatch_name (u "Zlib") = false
  /\ update_project (sample_env None) (u "/srv") (u "Zlib") (u "1.2.8") fresh
     = (Ok (notok "Invalid project name"), fresh)
  /\ status_code (notok "Invalid project name") = 500%Z.
Proof.
  split; [reflexivity|]. apply update_rejects_invalid_project. reflexivity.
Defined.

(** C2: on /update/<project>/master the answer is HTTP 500 for every
    project: "Invalid project name" when the name check fails, "No bananas
    for you" otherwise; the context is unchanged, so the updater is never
    built nor called. *)
Theorem update_rejects_master :
  forall env dir project s,
    exists r,
      update_project env dir project (u "master") s = (Ok r, s)
      /\ status_code r = 500%Z
      /\ r = (if fullmatch_name project then notok "No bananas for you"
              else notok "Invalid project name").
Proof.
  intros env dir project s. unfold update_project.
  destruct (fullmatch_name project); simpl; eexists; repeat split; reflexivity.
Qed.

(** C5: /projects/<p> answers HTTP 500 with "No such project" when the
    database lists no version of [p], and otherwise HTTP 200 with output
    "ok" and one {branch, revision} object per listed pair, in order. *)
Theorem project_info_versions :
  forall env dir p s,
    exists s',
      get_project_info env dir (Some p) s =
      (Ok (match get_versions env p with
           | [] => notok "No such project"
           | ms => with_status (jsonify (JObj [(u "output", JStr (u "ok"));
                                             (u "versions", JArr (map version_entry ms))])) 200
           end), s').
Proof.
  intros env dir p s. unfold get_project_info, bind, get_query_db, emit, ret.
  destruct (g_query_database s); simpl;
    destruct (get_versions env p) as [|m ms] eqn:E; simpl; eexists;
    try reflexivity; rewrite fold_append_map; reflexivity.
Qed.

(** C6: /projects/<p>/get_wrap?branch=B&revision=R, where [int] maps the
    revision text to R, answers the stored wrap text as a text/plain body
    when the database has (p, B, R), and HTTP 500 with a JSON error
    otherwise. *)
Theorem get_wrap_serves_text :
  forall env dir int_of p b rtext R args s,
    lookup_arg (u "branch") args = Some b ->
    lookup_arg (u "revision") args = Some rtext ->
    int_of rtext = Some R ->
    exists s',
      get_wrap env dir int_of p {| req_path := get_wrap_path p; req_args := args |} s =
      (Ok (match db_get_wrap env p b R with
           | Some content => {| status_code := 200; rbody := BRaw content (u "text/plain") |}
           | None => notok "No such entry"
           end), s').
Proof.
  intros env dir p0 p b rtext R args s Hb Hr Hi.
  unfold get_wrap, arg, py_int, bind, get_query_db, emit, ret. simpl.
  rewrite Hb, Hr, Hi, get_wrap_path_endswith.
  destruct (g_query_database s), (db_get_wrap env p b R); simpl; eexists; reflexivity.
Qed.

Lemma get_wrap_serves_text_witness :
  exists s',
    get_wrap (sample_env None) (u "/srv") cpython_int (u "zlib")
      {| req_path := get_wrap_path (u "zlib");
         req_args := [(u "branch", u "1.2.8"); (u "revision", u "3")] |} fresh =
    (Ok {| status_code := 200; rbody := BRaw (u "[wrap-file]") (u "text/plain") |}, s').
Proof.
  apply (get_wrap_serves_text (sample_env None) (u "/srv") cpython_int (u "zlib")
           (u "1.2.8") (u "3") 3%Z); vm_compute; reflexivity.
Defined.

(** C8 counterexample: the updater raising KeyboardInterrupt (a
    BaseException that is not an Exception) is not caught by
    [except Exception]: the route raises instead of answering 500. *)
Lemma update_base_exception_escapes :
  fst (update_project (sample_env (Some KeyboardInterrupt)) (u "/srv") (u "zlib") (u "1.2.8") fresh)
  = Raise KeyboardInterrupt.
Proof. vm_compute. reflexivity. Qed.

(** C8 (amended): for a valid project and a valid branch other than
    master, the route builds the updater handle if needed and calls it with
    https://github.com/mesonbuild/<project>.git; it answers HTTP 200
    {"output": "ok"} when the call returns, HTTP 500 "Wrap generation
    failed." when the call raises an Exception, and lets any other
    BaseException propagate. *)
Theorem update_calls_updater :
  forall env dir project branch s,
    fullmatch_name project = true ->
    fullmatch_name branch = true ->
    branch <> u "master" ->
    let url := u "https://github.com/mesonbuild/" ++ project ++ u ".git" in
    exists s',
      update_project env dir project branch s =
      (match update_db env project url branch with
       | None => Ok (jsonify (JObj [(u "output", JStr (u "ok"))]))
       | Some e => if is_Exception e then Ok (notok "Wrap generation failed.") else Raise e
       end, s')
      /\ trace s' = trace s ++ (if g_update_database s then [] else [NewWrapUpdater dir])
                            ++ [UpdateDb project url branch].
Proof.
  intros env dir project branch s Hp Hb Hm url.
  unfold update_project. rewrite Hp, Hb. cbn [negb].
  destruct (ustr_eqb branch (u "master")) eqn:E.
  { apply ustr_eqb_eq in E. contradiction. }
  fold url. clearbody url.
  unfold bind, try_except, get_update_db, emit, ret, raise.
  destruct (g_update_database s); simpl;
    destruct (update_db env project url branch) as [e|]; simpl;
    try (destruct (is_Exception e)); eexists; simpl; split; try reflexivity;
    try rewrite <- app_assoc; reflexivity.
Qed.

Lemma update_calls_updater_witness :
  exists s',
    update_project (sample_env (Some (OtherException (u "GitCommandError")))) (u "/srv")
      (u "zlib") (u "1.2.8") fresh = (Ok (notok "Wrap generation failed."), s')
    /\ trace s' = [NewWrapUpdater (u "/srv");
                   UpdateDb (u "zlib") (u "https://github.com/mesonbuild/zlib.git") (u "1.2.8")].
Proof.
  refine (update_calls_updater (sample_env (Some (OtherException (u "GitCommandError"))))
            (u "/srv") (u "zlib") (u "1.2.8") fresh eq_refl eq_refl _).
  intro H. discriminate H.
Defined.

(** C10 counterexample: the revision text " 7" is not a decimal integer
    string, yet [int] accepts it; with no entry stored the handler reaches
    the lookup and answers the JSON error "No such entry". *)
Lemma get_wrap_spaced_revision_answers_json :
  is_decimal_int_string (u " 7") = false
  /\ fst (get_wrap (sample_env None) (u "/srv") cpython_int (u "zlib")
            {| req_path := get_wrap_path (u "zlib");
               req_args := [(u "branch", u "1.2.8"); (u " revision", u "x");
                            (u "revision", u " 7")] |} fresh)
     = Ok (notok "No such entry").
Proof. vm_compute. split; reflexivity. Qed.

(** C10 (amended): on /projects/<p>/get_wrap and /projects/<p>/get_zip a
    missing branch or revision argument raises KeyError and a revision text
    rejected by [int] raises ValueError, in both cases before any database
    lookup; a revision text accepted by [int] (which includes texts such as
    " 7", "+7" or "1_0") reaches the lookup, and a missing entry then gives
    the JSON error "No such entry". *)
Theorem get_wrap_argument_errors :
  forall env dir int_of p req s,
    let (r, s') := get_wrap env dir int_of p req s in
    match lookup_arg (u "branch") (req_args req), lookup_arg (u "revision") (req_args req) with
    | Some b, Some t =>
        match int_of t with
        | None => r = Raise ValueError /\ filter is_lookup (trace s') = filter is_lookup (trace s)
        | Some R =>
            let found := if endswith (req_path req) (u "/get_wrap")
                         then db_get_wrap env p b R else db_get_zip env p b R in
            (found = None -> r = Ok (notok "No such entry"))
            /\ filter is_lookup (trace s') =
               filter is_lookup (trace s)
               ++ [if endswith (req_path req) (u "/get_wrap") then DbGetWrap p b R else DbGetZip p b R]
        end
    | _, _ => r = Raise KeyError /\ filter is_lookup (trace s') = filter is_lookup (trace s)
    end.
Proof.
  intros env dir int_of p req s.
  unfold get_wrap, arg, py_int, bind, get_query_db, emit, ret, raise.
  destruct (g_query_database s) eqn:G;
  destruct (lookup_arg (u "branch") (req_args req)) as [b|];
  destruct (lookup_arg (u "revision") (req_args req)) as [t|];
  try destruct (int_of t) as [R|];
  try destruct (endswith (req_path req) (u "/get_wrap"));
  try destruct (db_get_wrap env p b R); try destruct (db_get_zip env p b R);
  simpl; try (split; [reflexivity|]);
  try (split; [intro Hn; first [discriminate Hn | reflexivity]|]);
  repeat rewrite filter_app; simpl; try rewrite app_nil_r; reflexivity.
Qed.

End WrapwebFacts.

Module RepoinitFacts.
Import Repoinit.

Lemma upstream_templ_format : forall directory zipurl filename hash,
  percent_format upstream_templ [directory; zipurl; filename; hash]
  = Ok (upstream_wrap_text directory zipurl filename hash).
Proof. intros. reflexivity. Qed.

(** Closes [s' = s ++ firstn n calls] for the [n] calls actually made. *)
Ltac prefix_with n := exists n; simpl; repeat rewrite <- app_assoc; reflexivity.
Ltac prefix_of_calls :=
  first [ prefix_with 0 | prefix_with 1 | prefix_with 2 | prefix_with 3
        | prefix_with 4 | prefix_with 5 | prefix_with 6 | prefix_with 7 ].

(** C3: with a hash supplied, [create_version] makes only the local calls
    of [create_version_calls] (a prefix of them when one raises): the hash
    helper, which would open the archive URL, is not run and nothing goes
    to the network; the file written is the template filled with the
    supplied hash as source_hash. *)
Theorem create_version_with_hash_offline :
  forall h modname builtins sha version zipurl filename directory zh base s,
    (exists n,
        snd (create_version h modname builtins sha version zipurl filename directory
               (Some zh) base s)
        = s ++ firstn n (create_version_calls h version zipurl filename directory zh base))
    /\ forallb (fun ev => negb (is_network ev))
         (create_version_calls h version zipurl filename directory zh base) = true
    /\ upstream_wrap_text directory zipurl filename zh
       = u "[wrap-file]" ++ nl ++ u "directory = " ++ directory ++ nl ++ nl
         ++ u "source_url = " ++ zipurl ++ nl ++ u "source_filename = " ++ filename ++ nl
         ++ u "source_hash = " ++ zh ++ nl.
Proof.
  intros. split; [|split; reflexivity].
  unfold create_version, write_tracked, call, lift, bind, ret.
  rewrite upstream_templ_format.
  repeat (simpl; match goal with |- context [fails h ?ev] => destruct (fails h ev) end);
    prefix_of_calls.
Qed.

(** [_get_hash] reads [zipurl], which is neither local nor global. *)
Lemma get_hash_name_error :
  forall h modname builtins sha url s,
    lookup_name (u "zipurl") builtins = None ->
    _get_hash h modname builtins sha url s = (Raise NameError, s).
Proof.
  intros h modname builtins sha url s Hb.
  unfold _get_hash, load_name, bind, raise, ret.
  destruct (ustr_eqb modname (u "__main__")) eqn:E;
    unfold repoinit_globals; rewrite E; simpl; rewrite Hb; reflexivity.
Qed.

(** C7: a call of [create_version] that completes (in a Python whose
    builtins do not bind [zipurl]) had a hash supplied and made exactly
    the calls of [create_version_calls]: one file write, of upstream.wrap
    holding the [wrap-file] section with directory, source_url,
    source_filename and source_hash, the file staged in the index, and no
    commit and no push. *)
Theorem create_version_completed_calls :
  forall h modname builtins sha version zipurl filename directory ziphash base s s',
    lookup_name (u "zipurl") builtins = None ->
    create_version h modname builtins sha version zipurl filename directory ziphash base s
      = (Ok tt, s') ->
    exists zh new,
      ziphash = Some zh
      /\ new = create_version_calls h version zipurl filename directory zh base
      /\ s' = s ++ new
      /\ filter is_file_write new
         = [FileWrite (path_join (working_dir h) (u "upstream.wrap"))
                      (upstream_wrap_text directory zipurl filename zh)]
      /\ In (IndexAdd [u "upstream.wrap"]) new
      /\ forallb (fun ev => negb (is_commit_or_push ev)) new = true.
Proof.
  intros h modname builtins sha version zipurl filename directory ziphash base s s' Hb H.
  destruct ziphash as [zh|].
  - exists zh, (create_version_calls h version zipurl filename directory zh base).
    repeat split; [|simpl; tauto].
    revert H. unfold create_version, write_tracked, call, lift, bind, ret.
    rewrite upstream_templ_format.
    repeat (simpl; match goal with |- context [fails h ?ev] => destruct (fails h ev) end);
      intro H; try discriminate H.
    injection H as <-. repeat rewrite <- app_assoc. reflexivity.
  - revert H. unfold create_version, bind at 1.
    rewrite get_hash_name_error by exact Hb. discriminate.
Qed.

Lemma create_version_completed_calls_witness :
  let run := create_version (sample_host (GitRepo true)) (u "__main__")
               [(u "print", VObj (u "builtin_function_or_method"))] (fun _ => u "0")
               (u "1.2.8") (u "https://zlib.net/zlib-1.2.8.tar.gz") (u "zlib-1.2.8.tar.gz")
               (u "zlib-1.2.8") (Some (u "abc123")) None [] in
  exists zh new,
    Some (u "abc123") = Some zh
    /\ new = create_version_calls (sample_host (GitRepo true)) (u "1.2.8")
               (u "https://zlib.net/zlib-1.2.8.tar.gz") (u "zlib-1.2.8.tar.gz")
               (u "zlib-1.2.8") zh None
    /\ snd run = [] ++ new
    /\ filter is_file_write new
       = [FileWrite (path_join (working_dir (sample_host (GitRepo true))) (u "upstream.wrap"))
                    (upstream_wrap_text (u "zlib-1.2.8") (u "https://zlib.net/zlib-1.2.8.tar.gz")
                       (u "zlib-1.2.8.tar.gz") zh)]
    /\ In (IndexAdd [u "upstream.wrap"]) new
    /\ forallb (fun ev => negb (is_commit_or_push ev)) new = true.
Proof.
  intro run.
  apply (create_version_completed_calls (sample_host (GitRepo true)) (u "__main__")
           [(u "print", VObj (u "builtin_function_or_method"))] (fun _ => u "0")
           (u "1.2.8") (u "https://zlib.net/zlib-1.2.8.tar.gz") (u "zlib-1.2.8.tar.gz")
           (u "zlib-1.2.8") (Some (u "abc123")) None [] (snd run)).
  - reflexivity.
  - vm_compute. reflexivity.
Defined.

(** C9: with [ziphash = None], [create_version] raises NameError (the
    hash helper reads the unbound name [zipurl] instead of its parameter
    [url]) before making any call: no download, no hash, no upstream.wrap. *)
Theorem create_version_without_hash_name_error :
  forall h modname builtins sha version zipurl filename directory base s,
    lookup_name (u "zipurl") builtins = None ->
    create_version h modname builtins sha version zipurl filename directory None base s
    = (Raise NameError, s).
Proof.
  intros h modname builtins sha version zipurl filename directory base s Hb.
  unfold create_version, bind at 1. rewrite get_hash_name_error by exact Hb. reflexivity.
Qed.

Lemma create_version_without_hash_name_error_witness :
  create_version (sample_host (GitRepo true)) (u "repoinit")
    [(u "print", VObj (u "builtin_function_or_method")); (u "open", VObj (u "builtin_function_or_method"))]
    (fun _ => u "0") (u "1.2.8") (u "https://zlib.net/zlib-1.2.8.tar.gz")
    (u "zlib-1.2.8.tar.gz") (u "zlib-1.2.8") None None []
  = (Raise NameError, []).
Proof.
  apply create_version_without_hash_name_error. reflexivity.
Defined.

(** C4 counterexample: bootstrapping at a path that does not exist, with
    no homepage, raises GitPython's NoSuchPathError from [git.Repo(path)]:
    it is not the InvalidGitRepositoryError the constructor catches, so no
    ValueError is raised. *)
Lemma init_missing_path_no_value_error :
  fst (RepoBuilder_init (sample_host Missing) [] (u "zlib") (Some (u "/home/dev/zlib"))
         None (Some (u "mesonbuild")) [])
  = Raise NoSuchPathError.
Proof. vm_compute. reflexivity. Qed.

(** C4 (amended): with no homepage, when [git.Repo(path)] finds an
    existing path that is not a repository the constructor raises
    ValueError, and when the path does not exist NoSuchPathError escapes;
    in both cases the only call made is opening the repository: no GitHub
    client, no remote repository, no push. *)
Theorem init_without_homepage_offline :
  forall h terms name path organization s,
    let p := repo_path h path in
    (path_at h p = NotARepo ->
     RepoBuilder_init h terms name path None organization s
     = (Raise ValueError, s ++ [GitRepoOpen p]))
    /\ (path_at h p = Missing ->
        RepoBuilder_init h terms name path None organization s
        = (Raise NoSuchPathError, s ++ [GitRepoOpen p]))
    /\ is_network (GitRepoOpen p) = false.
Proof.
  intros h terms name path organization s p.
  unfold RepoBuilder_init, try_except, open_repo, emit, bind, raise. fold p.
  repeat split; intro H; rewrite H; reflexivity.
Qed.

Lemma init_without_homepage_offline_witness :
  RepoBuilder_init (sample_host NotARepo) [] (u "zlib") (Some (u "/home/dev/zlib"))
    None (Some (u "mesonbuild")) []
  = (Raise ValueError, [GitRepoOpen (u "/home/dev/zlib")]).
Proof.
  exact (proj1 (init_without_homepage_offline (sample_host NotARepo) [] (u "zlib")
                  (Some (u "/home/dev/zlib")) (Some (u "mesonbuild")) []) eq_refl).
Defined.

End RepoinitFacts.

Module StableFacts.

Section Stable.
Context {S : Type} (R : S -> S -> Prop).
Hypothesis R_refl : forall s, R s s.
Hypothesis R_trans : forall s1 s2 s3, R s1 s2 -> R s2 s3 -> R s1 s3.

Lemma stable_ret {A} (a : A) : stable R (ret a).
Proof. intro s. apply R_refl. Qed.

Lemma stable_raise {A} (e : exc) : stable R (@raise S A e).
Proof. intro s. apply R_refl. Qed.

Lemma stable_bind {A B} (m : M S A) (k : A -> M S B) :
  stable R m -> (forall a, stable R (k a)) -> stable R (bind m k).
Proof.
  intros Hm Hk s. unfold bind. specialize (Hm s).
  destruct (m s) as [[a|e] s1]; simpl in *; [eapply R_trans; [exact Hm | apply Hk] | exact Hm].
Qed.

Lemma stable_try {A} (m : M S A) (catches : exc -> bool) (hd : exc -> M S A) :
  stable R m -> (forall e, stable R (hd e)) -> stable R (try_except m catches hd).
Proof.
  intros Hm Hh s. unfold try_except. specialize (Hm s).
  destruct (m s) as [[a|e] s1]; simpl in *; [exact Hm|].
  destruct (catches e); [eapply R_trans; [exact Hm | apply Hh] | exact Hm].
Qed.

End Stable.

(** Splits a computation built from [bind], [try_except], [ret], [raise]
    and branches into its leaves, closing them with [leaf]. *)
Ltac stable_by refl trans leaf :=
  repeat first
    [ progress cbv zeta
    | apply (stable_bind _ trans); [|intro]
    | apply (stable_try _ trans); [|intro]
    | apply stable_ret; exact refl
    | apply stable_raise; exact refl
    | solve [leaf]
    | match goal with
      | |- stable _ (match ?x with _ => _ end) => destruct x
      end ].

End StableFacts.

Module WrapwebExtra.
Import Wrapweb StableFacts.













Definition is_updater_event (ev : event) : bool :=
  match ev with NewWrapUpdater _ | UpdateDb _ _ _ => true | _ => false end.

Definition is_query_event (ev : event) : bool :=
  match ev with
  | NewWrapDatabase _ | NameSearch _ | GetVersions _ | DbGetWrap _ _ _ | DbGetZip _ _ _ => true
  | _ => false
  end.

Definition updater_untouched (s s' : state) : Prop :=
  g_update_database s' = g_update_database s
  /\ filter is_updater_event (trace s') = filter is_updater_event (trace s).

Definition query_untouched (s s' : state) : Prop :=
  g_query_database s' = g_query_database s
  /\ filter is_query_event (trace s') = filter is_query_event (trace s).

Lemma updater_untouched_refl : forall s, updater_untouched s s.
Proof. split; reflexivity. Qed.
Lemma updater_untouched_trans : forall s1 s2 s3,
  updater_untouched s1 s2 -> updater_untouched s2 s3 -> updater_untouched s1 s3.
Proof. intros s1 s2 s3 [A B] [C D]. split; congruence. Qed.
Lemma query_untouched_refl : forall s, query_untouched s s.
Proof. split; reflexivity. Qed.
Lemma query_untouched_trans : forall s1 s2 s3,
  query_untouched s1 s2 -> query_untouched s2 s3 -> query_untouched s1 s3.
Proof. intros s1 s2 s3 [A B] [C D]. split; congruence. Qed.

Lemma updater_untouched_emit : forall ev,
  is_updater_event ev = false -> stable updater_untouched (emit ev).
Proof.
  intros ev H s. split; simpl; [reflexivity|]. rewrite filter_app. simpl. rewrite H. apply app_nil_r.
Qed.

Lemma query_untouched_emit : forall ev,
  is_query_event ev = false -> stable query_untouched (emit ev).
Proof.
  intros ev H s. split; simpl; [reflexivity|]. rewrite filter_app. simpl. rewrite H. apply app_nil_r.
Qed.

Lemma updater_untouched_get_query_db : forall dir, stable updater_untouched (get_query_db dir).
Proof.
  intros dir s. unfold get_query_db. destruct (g_query_database s); simpl.
  - apply updater_untouched_refl.
  - split; simpl; [reflexivity|]. rewrite filter_app. apply app_nil_r.
Qed.

Lemma query_untouched_get_update_db : forall dir, stable query_untouched (get_update_db dir).
Proof.
  intros dir s. unfold get_update_db. destruct (g_update_database s); simpl.
  - apply query_untouched_refl.
  - split; simpl; [reflexivity|]. rewrite filter_app. apply app_nil_r.
Qed.

Lemma project_info_updater_untouched : forall env dir project,
  stable updater_untouched (get_project_info env dir project).
Proof.
  intros env dir project. unfold get_project_info, get_projectlist.
  stable_by updater_untouched_refl updater_untouched_trans
    ltac:(first [apply updater_untouched_get_query_db
                | apply updater_untouched_emit; reflexivity]).
Qed.

Lemma get_wrap_updater_untouched : forall env dir int_of project req,
  stable updater_untouched (get_wrap env dir int_of project req).
Proof.
  intros. unfold get_wrap, arg, py_int.
  stable_by updater_untouched_refl updater_untouched_trans
    ltac:(first [apply updater_untouched_get_query_db
                | apply updater_untouched_emit; reflexivity]).
Qed.

Lemma update_query_untouched : forall env dir project branch,
  stable query_untouched (update_project env dir project branch).
Proof.
  intros. unfold update_project.
  stable_by query_untouched_refl query_untouched_trans
    ltac:(first [apply query_untouched_get_update_db
                | apply query_untouched_emit; reflexivity]).
Qed.

(** X2: the read routes (/projects, /projects/<p>, get_wrap, get_zip)
    never build nor call the updater, and the update route never builds
    nor calls the query database, whether the route returns or raises. *)
Theorem routes_keep_to_their_handle : forall env dir int_of r s,
  let s' := snd (dispatch env dir int_of r s) in
  match r with
  | UpdateRoute _ _ =>
      g_query_database s' = g_query_database s
      /\ filter is_query_event (trace s') = filter is_query_event (trace s)
  | _ =>
      g_update_database s' = g_update_database s
      /\ filter is_updater_event (trace s') = filter is_updater_event (trace s)
  end.
Proof.
  intros env dir int_of r s s'. subst s'.
  destruct r as [project|project req|project branch]; simpl.
  - exact (project_info_updater_untouched env dir project s).
  - exact (get_wrap_updater_untouched env dir int_of project req s).
  - exact (update_query_untouched env dir project branch s).
Qed.

(** X3: on /update/<project>/<branch> with a valid project name, a branch
    name that does not fully match [a-z0-9._]+ gets HTTP 500 "Invalid
    branch name" and the request context is left as it was. *)
Theorem update_rejects_invalid_branch : forall env dir project branch s,
  fullmatch_name project = true ->
  fullmatch_name branch = false ->
  update_project env dir project branch s = (Ok (notok "Invalid branch name"), s).
Proof.
  intros env dir project branch s Hp Hb. unfold update_project. rewrite Hp, Hb. reflexivity.
Qed.

Lemma update_rejects_invalid_branch_witness :
  update_project (sample_env None) (u "/srv") (u "zlib") (u "feature/x") fresh
  = (Ok (notok "Invalid branch name"), fresh).
Proof. apply update_rejects_invalid_branch; reflexivity. Defined.

(** X4: /projects answers HTTP 200 with output "ok" and every name the
    query database returns for the empty search, in its order; it makes
    that one search and builds the query handle if [g] has none. *)
Theorem projects_lists_all_names : forall env dir s,
  exists s',
    get_project_info env dir None s =
    (Ok (jsonify (JObj [(u "output", JStr (u "ok"));
                        (u "projects", JArr (map JStr (name_search env [])))])), s')
    /\ trace s' = trace s ++ (if g_query_database s then [] else [NewWrapDatabase dir])
                          ++ [NameSearch []].
Proof.
  intros env dir s. unfold get_project_info, get_projectlist, bind, get_query_db, emit, ret.
  destruct (g_query_database s); simpl; eexists; split; try reflexivity.
  rewrite <- app_assoc. reflexivity.
Qed.

(** X5: /projects/<p>/get_zip?branch=B&revision=R, where [int] maps the
    revision text to R, answers the stored archive as an application/zip
    body when the database has it, and HTTP 500 "No such entry" otherwise;
    it looks up the archive, never the wrap. *)
Theorem get_zip_serves_archive :
  forall env dir int_of p b rtext R args s,
    lookup_arg (u "branch") args = Some b ->
    lookup_arg (u "revision") args = Some rtext ->
    int_of rtext = Some R ->
    exists s',
      get_wrap env dir int_of p {| req_path := get_zip_path p; req_args := args |} s =
      (Ok (match db_get_zip env p b R with
           | Some data => {| status_code := 200; rbody := BRaw data (u "application/zip") |}
           | None => notok "No such entry"
           end), s')
      /\ trace s' = trace s ++ (if g_query_database s then [] else [NewWrapDatabase dir])
                            ++ [DbGetZip p b R].
Proof.
  intros env dir p0 p b rtext R args s Hb Hr Hi.
  unfold get_wrap, arg, py_int, bind, get_query_db, emit, ret. simpl.
  rewrite Hb, Hr, Hi, WrapwebFacts.get_zip_path_not_wrap.
  destruct (g_query_database s), (db_get_zip env p b R); simpl; eexists; split;
    try reflexivity; rewrite <- app_assoc; reflexivity.
Qed.

Lemma get_zip_serves_archive_witness :
  exists s',
    get_wrap (sample_env None) (u "/srv") cpython_int (u "zlib")
      {| req_path := get_zip_path (u "zlib");
         req_args := [(u "branch", u "1.2.8"); (u "revision", u "3")] |} fresh =
    (Ok (notok "No such entry"), s')
    /\ trace s' = [NewWrapDatabase (u "/srv"); DbGetZip (u "zlib") (u "1.2.8") 3%Z].
Proof.
  exact (get_zip_serves_archive (sample_env None) (u "/srv") cpython_int (u "zlib")
           (u "1.2.8") (u "3") 3%Z [(u "branch", u "1.2.8"); (u "revision", u "3")] fresh
           eq_refl eq_refl eq_refl).
Defined.

(** X6: every response a route returns has status 200 or 500; the other
    outcomes are exceptions raised out of the handler. *)
Theorem routes_answer_200_or_500 : forall env dir int_of r s resp s',
  dispatch env dir int_of r s = (Ok resp, s') ->
  status_code resp = 200%Z \/ status_code resp = 500%Z.
Proof.
  intros env dir int_of r s resp s' H.
  destruct r as [[project|]|project req|project branch]; simpl in H.
  - revert H. unfold get_project_info, bind, get_query_db, emit, ret.
    destruct (g_query_database s); simpl;
      destruct (Nat.eqb (length (get_versions env project)) 0); intro H;
      injection H as <- _; simpl; auto.
  - revert H. unfold get_project_info, get_projectlist, bind, get_query_db, emit, ret.
    destruct (g_query_database s); simpl; intro H; injection H as <- _; simpl; auto.
  - revert H. unfold get_wrap, arg, py_int, bind, get_query_db, emit, ret, raise.
    destruct (g_query_database s); simpl;
      destruct (lookup_arg (u "branch") (req_args req)); simpl; try discriminate;
      destruct (lookup_arg (u "revision") (req_args req)); simpl; try discriminate;
      try (destruct (int_of u0); simpl; try discriminate);
      try (destruct (int_of u1); simpl; try discriminate);
      destruct (endswith (req_path req) (u "/get_wrap")); simpl;
      repeat match goal with |- context [match ?x with Some _ => _ | None => _ end] =>
                               destruct x; simpl end;
      intro H; injection H as <- _; simpl; auto.
  - revert H. unfold update_project, bind, try_except, get_update_db, emit, ret, raise.
    destruct (negb (fullmatch_name project)); [intro H; injection H as <- _; simpl; auto|].
    destruct (negb (fullmatch_name branch)); [intro H; injection H as <- _; simpl; auto|].
    destruct (ustr_eqb branch (u "master")); [intro H; injection H as <- _; simpl; auto|].
    destruct (g_update_database s); simpl;
      match goal with |- context [update_db env project ?url branch] =>
        destruct (update_db env project url branch) as [e|] end; simpl;
      try destruct (is_Exception e); intro H; try discriminate H;
      injection H as <- _; simpl; auto.
Qed.

Lemma routes_answer_200_or_500_witness :
  match dispatch (sample_env None) (u "/srv/db") cpython_int
          (WrapRoute (u "zlib") {| req_path := u "/projects/zlib/get_wrap";
                                   req_args := [(u "branch", u "1.2.8"); (u "revision", u "3")] |})
          fresh with
  | (Ok resp, _) => status_code resp = 200%Z \/ status_code resp = 500%Z
  | (Raise _, _) => False
  end.
Proof.
  destruct (dispatch (sample_env None) (u "/srv/db") cpython_int
          (WrapRoute (u "zlib") {| req_path := u "/projects/zlib/get_wrap";
                                   req_args := [(u "branch", u "1.2.8"); (u "revision", u "3")] |})
          fresh) as [[resp|e] s'] eqn:E.
  - exact (routes_answer_200_or_500 _ _ _ _ _ resp s' E).
  - vm_compute in E. discriminate E.
Defined.

End WrapwebExtra.

Module RepoinitExtra.
Import Repoinit StableFacts.

(** X7: on an existing git repository, [RepoBuilder.__init__] only opens
    it and looks up its [origin] remote, whatever the homepage and
    organization: it returns when [origin] exists and raises ValueError
    when it does not, without any GitHub call. *)
Theorem init_existing_repo_local_only :
  forall h terms name path homepage organization s has_origin,
    path_at h (repo_path h path) = GitRepo has_origin ->
    RepoBuilder_init h terms name path homepage organization s
    = (if has_origin then Ok tt else Raise ValueError,
       s ++ [GitRepoOpen (repo_path h path); RemoteLookup (u "origin")]).
Proof.
  intros h terms name path homepage organization s has_origin Hp.
  unfold RepoBuilder_init, try_except, open_repo, emit, bind, ret, raise.
  rewrite Hp. destruct has_origin; simpl; rewrite <- app_assoc; reflexivity.
Qed.

Lemma init_existing_repo_local_only_witness :
  RepoBuilder_init (sample_host (GitRepo false)) [] (u "zlib") None (Some (u "https://zlib.net"))
    (Some (u "mesonbuild")) []
  = (Raise ValueError, [GitRepoOpen (u "/home/dev"); RemoteLookup (u "origin")]).
Proof.
  exact (init_existing_repo_local_only (sample_host (GitRepo false)) [] (u "zlib") None
           (Some (u "https://zlib.net")) (Some (u "mesonbuild")) [] false eq_refl).
Defined.




Definition cli_organization (args : cli_args) : ustr :=
  if arg_test args then u "mesonbuild-test" else u "mesonbuild".

(** X9: when every call succeeds, the command line run on a path that
    exists but is not a repository, with a homepage, bootstraps the
    repository under the organization mesonbuild-test when --test is
    given and mesonbuild otherwise, then creates and pushes the branch
    named by --version when that value is non-empty. *)
Theorem main_bootstraps : forall h terms args hp s,
  (forall ev, fails h ev = None) ->
  path_at h (repo_path h (arg_directory args)) = NotARepo ->
  arg_homepage args = Some hp ->
  main h terms args s
  = (Ok tt, s ++ bootstrap_calls h terms (arg_name args) (arg_directory args) hp
                   (Some (cli_organization args))
              ++ version_calls (arg_version args)).
Proof.
  intros h terms args hp s Hf Hp Hh.
  unfold main, init_version, RepoBuilder_init, try_except, open_repo, write_tracked,
    call, emit, bind, ret, raise.
  rewrite Hp, Hh. cbv zeta. repeat rewrite Hf. unfold cli_organization.
  destruct (arg_version args) as [[|c v]|]; repeat progress (simpl; rewrite ?Hf);
    repeat rewrite <- app_assoc; reflexivity.
Qed.

Lemma main_bootstraps_witness :
  main (sample_host NotARepo) []
    {| arg_name := u "zlib"; arg_directory := Some (u "/home/dev/zlib");
       arg_version := Some (u "1.2.8"); arg_homepage := Some (u "https://zlib.net");
       arg_test := true |} []
  = (Ok tt, [] ++ bootstrap_calls (sample_host NotARepo) [] (u "zlib") (Some (u "/home/dev/zlib"))
                   (u "https://zlib.net") (Some (u "mesonbuild-test"))
              ++ version_calls (Some (u "1.2.8"))).
Proof.
  exact (main_bootstraps (sample_host NotARepo) []
           {| arg_name := u "zlib"; arg_directory := Some (u "/home/dev/zlib");
              arg_version := Some (u "1.2.8"); arg_homepage := Some (u "https://zlib.net");
              arg_test := true |} (u "https://zlib.net") [] (fun _ => eq_refl) eq_refl eq_refl).
Defined.

(** X10: when every call succeeds, the command line run on an existing
    repository with an [origin] remote makes no GitHub call, whatever
    --homepage and --test say: it opens the repository, looks up
    [origin], then creates and pushes the --version branch when that
    value is non-empty. *)
Theorem main_existing_repo : forall h terms args s,
  (forall ev, fails h ev = None) ->
  path_at h (repo_path h (arg_directory args)) = GitRepo true ->
  main h terms args s
  = (Ok tt, s ++ [GitRepoOpen (repo_path h (arg_directory args)); RemoteLookup (u "origin")]
              ++ version_calls (arg_version args)).
Proof.
  intros h terms args s Hf Hp.
  unfold main, init_version, RepoBuilder_init, try_except, open_repo, call, emit, bind, ret.
  rewrite Hp. cbv zeta. repeat rewrite Hf.
  destruct (arg_version args) as [[|c v]|]; repeat progress (simpl; rewrite ?Hf);
    repeat rewrite <- app_assoc; reflexivity.
Qed.

Lemma main_existing_repo_witness :
  main (sample_host (GitRepo true)) []
    {| arg_name := u "zlib"; arg_directory := None; arg_version := Some [];
       arg_homepage := None; arg_test := false |} []
  = (Ok tt, [] ++ [GitRepoOpen (u "/home/dev"); RemoteLookup (u "origin")] ++ version_calls (Some [])).
Proof.
  exact (main_existing_repo (sample_host (GitRepo true)) []
           {| arg_name := u "zlib"; arg_directory := None; arg_version := Some [];
              arg_homepage := None; arg_test := false |} [] (fun _ => eq_refl) eq_refl).
Defined.

(** The calls made from [s] to [s'] are all allowed by [cli_event_ok]. *)
Definition cli_calls_ok (h : host) (s s' : state) : Prop :=
  exists new, s' = s ++ new /\ forallb (cli_event_ok h) new = true.

Lemma cli_calls_ok_refl : forall h s, cli_calls_ok h s s.
Proof. intros h s. exists []. rewrite app_nil_r. split; reflexivity. Qed.

Lemma cli_calls_ok_trans : forall h s1 s2 s3,
  cli_calls_ok h s1 s2 -> cli_calls_ok h s2 s3 -> cli_calls_ok h s1 s3.
Proof.
  intros h s1 s2 s3 [n1 [-> H1]] [n2 [-> H2]]. exists (n1 ++ n2).
  rewrite app_assoc, forallb_app, H1, H2. split; reflexivity.
Qed.

Lemma cli_call : forall h ev, cli_event_ok h ev = true -> stable (cli_calls_ok h) (call h ev).
Proof.
  intros h ev Hok s. unfold call. exists [ev].
  destruct (fails h ev); simpl; rewrite Hok; split; reflexivity.
Qed.

Lemma cli_emit : forall h ev, cli_event_ok h ev = true -> stable (cli_calls_ok h) (emit ev).
Proof. intros h ev Hok s. exists [ev]. simpl. rewrite Hok. split; reflexivity. Qed.

Lemma ustr_eqb_refl : forall a, ustr_eqb a a = true.
Proof. intro a. apply ustr_eqb_eq. reflexivity. Qed.

Ltac cli_leaf :=
  first [ apply cli_call | apply cli_emit ];
  simpl; rewrite ?ustr_eqb_refl, ?orb_true_r; reflexivity.

(** X11: whatever the arguments and whatever the calls raise, the command
    line never opens an archive URL (no download, no hash) and never
    opens or writes any file other than readme.txt and LICENSE.build: it
    does not create upstream.wrap. *)
Theorem main_never_downloads : forall h terms args s,
  exists new,
    snd (main h terms args s) = s ++ new /\ forallb (cli_event_ok h) new = true.
Proof.
  intros h terms args s. revert s. change (stable (cli_calls_ok h) (main h terms args)).
  unfold main, init_version, RepoBuilder_init, open_repo, write_tracked.
  stable_by (cli_calls_ok_refl h) (cli_calls_ok_trans h) cli_leaf.
Qed.

End RepoinitExtra.
